(** * analyze.py: layout, load, profile and plot of a graph

    A shallow embedding of the script [analyze.py].  The script is a
    straight-line sequence of calls into external tools (the [circo]
    renderer and [xdg-open], both run through plumbum) and libraries
    (networkit, matplotlib.pyplot).  The calls are embedded as computations
    of a state-and-exception monad over a [World]: the file system, the
    heap of graph objects, the current pyplot figure and the log of
    everything the script did that can be observed from outside. *)

From Stdlib Require Import ZArith Ascii String Permutation Sorted.
From stdpp Require Import gmap strings list pretty.

Local Open Scope string_scope.
Local Open Scope list_scope.
Local Open Scope Z_scope.

(** ** Strings and paths *)

Module Path.

(** Components of a string separated by [sep]; [acc] holds the characters
    of the current component in reverse. *)
Fixpoint split_on (sep : ascii) (acc : string) (s : string) : list string :=
  match s with
  | EmptyString => [String.rev acc]
  | String c rest =>
      if Ascii.eqb c sep
      then String.rev acc :: split_on sep EmptyString rest
      else split_on sep (String c acc) rest
  end.

Definition split (sep : ascii) (s : string) : list string :=
  split_on sep EmptyString s.

(** A file is named by the components of its path below the working
    directory: empty components and ["."] do not count, so ["./a"] and
    ["a"] name the same file. *)
Definition resolve (p : string) : list string :=
  filter (λ c, c ≠ "" ∧ c ≠ ".") (split "/"%char p).

(** [os.path.basename] *)
Definition basename (p : string) : string :=
  List.last (split "/"%char p) "".

(** [s.split(".")[0]] *)
Definition stem (s : string) : string :=
  List.hd "" (split "."%char s).

(** [s.replace(a, b)] for single characters *)
Fixpoint replace (a b : ascii) (s : string) : string :=
  match s with
  | EmptyString => EmptyString
  | String c rest => String (if Ascii.eqb c a then b else c) (replace a b rest)
  end.

End Path.

(** [fmt.format] for replacement fields written [{}]: the fields
    take the arguments in order; [None] is Python's [IndexError] when the
    arguments run out. *)
Fixpoint str_format (fmt : string) (args : list string) : option string :=
  match fmt with
  | EmptyString => Some EmptyString
  | String "{" (String "}" rest) =>
      match args with
      | [] => None
      | a :: args' => String.append a <$> str_format rest args'
      end
  | String c rest => String c <$> str_format rest args
  end.

(** ** networkit: graphs and degree centrality *)

(** The formats [readGraph] dispatches on (the script names [GraphML]). *)
Inductive Format := GraphML | GML | EdgeListSpaceZero | METIS.

(** A graph object: nodes are the ids [0 .. numberOfNodes - 1], every edge
    is a pair of node ids (parallel edges and loops are kept, as the GraphML
    reader adds one edge per [<edge>] element). *)
Record Graph := {
  getName : string;
  isDirected : bool;
  numberOfNodes : nat;
  edges : list (nat * nat);
}.

Definition numberOfEdges (g : Graph) : nat := length (edges g).

Definition setName (n : string) (g : Graph) : Graph :=
  {| getName := n; isDirected := isDirected g;
     numberOfNodes := numberOfNodes g; edges := edges g |}.

(** An edge is counted at its source, and for an undirected graph at its
    target too (a loop once). *)
Definition incident (g : Graph) (u : nat) (e : nat * nat) : bool :=
  (fst e =? u)%nat || (negb (isDirected g) && negb (fst e =? snd e)%nat && (snd e =? u)%nat).

Definition degree (g : Graph) (u : nat) : nat :=
  length (List.filter (incident g u) (edges g)).

(** [DegreeCentrality(g).run().scores()] with the defaults
    [normalized=False, outDeg=True]: the score of node [u], at index [u],
    is its degree.  The scores are floats that hold these counts exactly;
    they are kept as integers. *)
Definition degree_scores (g : Graph) : list Z :=
  map (λ u, Z.of_nat (degree g u)) (seq 0 (numberOfNodes g)).

(** ** Python's [sorted(xs, reverse=True)] *)

(** The sort is stable, also when reversed: [x] goes in front of the first
    element that is not greater than it. *)
Fixpoint insort_desc (x : Z) (l : list Z) : list Z :=
  match l with
  | [] => [x]
  | y :: l' => if x <? y then y :: insort_desc x l' else x :: l
  end.

Definition sorted_reverse (xs : list Z) : list Z := foldr insort_desc [] xs.

(** ** matplotlib.pyplot: the current figure *)

Inductive scale := Linear | Log | Symlog | Logit.

Definition scale_of_string (s : string) : option scale :=
  if decide (s = "linear") then Some Linear
  else if decide (s = "log") then Some Log
  else if decide (s = "symlog") then Some Symlog
  else if decide (s = "logit") then Some Logit
  else None.

(** A line is its x data and its y data. *)
Record Figure := {
  xscale : scale;
  yscale : scale;
  xlabel : string;
  ylabel : string;
  lines : list (list Z * list Z);
}.

Definition new_figure : Figure :=
  {| xscale := Linear; yscale := Linear; xlabel := ""; ylabel := ""; lines := [] |}.

(** [range(n)] *)
Definition range (n : nat) : list Z := map Z.of_nat (seq 0 n).

(** ** The world the script runs in *)

(** What the script does that is visible from outside, in the order it
    happens.  A process is logged when it has exited, with its status;
    [Read] is networkit being asked to read a file. *)
Inductive event :=
| Exec (prog : string) (args : list string) (status : Z)
| Read (path : string)
| Write (file : list string) (content : string)
| Print (line : string)
| Show (fig : Figure).

Inductive exn :=
| ImportError (name : string)
| ProcessExecutionError (prog : string) (args : list string) (status : Z)
| IOError (msg : string)
| IndexError
| ValueError (msg : string)
| ProfileError (preset : string)
| ReferenceError.

Record World := {
  fs : gmap (list string) string;   (* files below the working directory *)
  argv : list string;               (* sys.argv *)
  environ : gmap string string;     (* os.environ *)
  heap : gmap nat Graph;            (* the graph objects networkit owns *)
  pyplot : Figure;                  (* pyplot's current figure *)
  trace : list event;
}.

Definition set_fs (f : gmap (list string) string) (w : World) : World :=
  {| fs := f; argv := argv w; environ := environ w; heap := heap w;
     pyplot := pyplot w; trace := trace w |}.

Definition set_heap (h : gmap nat Graph) (w : World) : World :=
  {| fs := fs w; argv := argv w; environ := environ w; heap := h;
     pyplot := pyplot w; trace := trace w |}.

Definition set_pyplot (p : Figure) (w : World) : World :=
  {| fs := fs w; argv := argv w; environ := environ w; heap := heap w;
     pyplot := p; trace := trace w |}.

Definition log (e : event) (w : World) : World :=
  {| fs := fs w; argv := argv w; environ := environ w; heap := heap w;
     pyplot := pyplot w; trace := trace w ++ [e] |}.

Definition log_all (evs : list event) (w : World) : World :=
  {| fs := fs w; argv := argv w; environ := environ w; heap := heap w;
     pyplot := pyplot w; trace := trace w ++ evs |}.

(** The world of a freshly started interpreter. *)
Definition boot (files : gmap (list string) string) (args : list string)
    (vars : gmap string string) : World :=
  {| fs := files; argv := args; environ := vars; heap := ∅;
     pyplot := new_figure; trace := [] |}.

(** ** Computations: state and exceptions *)

Inductive result (A : Type) :=
| Ok (a : A)
| Raise (e : exn).
Arguments Ok {A} a.
Arguments Raise {A} e.

(** An exception leaves the world as it was when it was raised. *)
Definition M (A : Type) : Type := World → result A * World.

Definition ret {A} (a : A) : M A := λ w, (Ok a, w).

Definition throw {A} (e : exn) : M A := λ w, (Raise e, w).

Definition bind {A B} (m : M A) (k : A → M B) : M B := λ w,
  match m w with
  | (Ok a, w') => k a w'
  | (Raise e, w') => (Raise e, w')
  end.

#[global] Instance M_ret : MRet M := @ret.
#[global] Instance M_bind : MBind M := λ A B k m, bind m k.

Definition emit (e : event) : M unit := λ w, (Ok (), log e w).

Definition get_graph (G : nat) : M Graph := λ w,
  match heap w !! G with
  | Some g => (Ok g, w)
  | None => (Raise ReferenceError, w)
  end.

(** The exit status of the interpreter: an exception nobody handles ends it
    with status 1. *)
Definition exit_status {A} (r : result A) : Z :=
  match r with
  | Ok _ => 0
  | Raise _ => 1
  end.

(** ** The external tools *)

(** What an external process does with its arguments and the files it
    finds: its exit status and the files it writes. *)
Definition proc : Type :=
  list string → gmap (list string) string → Z * list (list string * string).

(** What the script takes from its surroundings and does not compute:
    which programs are on the search path, which Python modules can be
    imported, the renderer's layout of a DOT text in a given output format,
    networkit's readers (the graph a reader makes of a text, the lines it
    prints while it reads, such as [identified graph as directed], and the
    message of the [IOError] for a text it refuses), the HTML that the
    profile of a graph comes to, and the status with which the desktop's
    viewer for a file ends. *)
Record Env := {
  installed : string → bool;
  importable : string → bool;
  layout : string → string → option string;
  reader : Format → string → option Graph;
  reader_says : Format → string → list string;
  reader_error : string → Format → string → string;
  profile_html : string → Graph → option string;
  viewer : string → Z;
}.

Section Script.

Variable env : Env.

(** *** plumbum *)

(** [local.which]: the name itself, then with [_] as [-] and as [.] *)
Definition which (prog : string) : bool :=
  installed env prog
  || installed env (Path.replace "_"%char "-"%char prog)
  || installed env (Path.replace "_"%char "."%char prog).

(** [from plumbum.cmd import prog]: the program is looked up when it is
    imported. *)
Definition import_cmd (prog : string) : M unit :=
  if which prog then ret () else throw (ImportError prog).

(** *** Python's import *)

(** [import module]: a module that cannot be imported raises. *)
Definition import_module (module : string) : M unit :=
  if importable env module then ret () else throw (ImportError module).

(** [from module import names]: the module, then each name in it. *)
Definition from_import (module : string) (names : list string) : M unit :=
  import_module module ;;
  foldr (λ name rest, import_module (module +:+ "." +:+ name) ;; rest) (ret ()) names.

(** [cmd[args]()]: runs the program to its end; any status but 0 raises. *)
Definition run (prog : string) (p : proc) (args : list string) : M unit := λ w,
  let '(status, writes) := p args (fs w) in
  let w1 := foldl (λ w' fc, log (Write fc.1 fc.2) (set_fs (<[fc.1 := fc.2]> (fs w')) w'))
                  w writes in
  let w2 := log (Exec prog args status) w1 in
  if status =? 0 then (Ok (), w2)
  else (Raise (ProcessExecutionError prog args status), w2).

(** [circo -T<fmt> input -o output]: without the input file, or when the
    input is not a graph, the renderer reports it, writes nothing and
    exits with an error status.  Other command lines are not modelled. *)
Definition circo_proc : proc := λ args files,
  match args with
  | [String "-" (String "T" fmt); input; o; output] =>
      if decide (o = "-o") then
        match files !! Path.resolve input with
        | None => (2, [])
        | Some src =>
            match layout env fmt src with
            | None => (1, [])
            | Some img => (0, [(Path.resolve output, img)])
            end
        end
      else (1, [])
  | _ => (1, [])
  end.

(** [xdg-open file]: status 2 when the file does not exist, else the
    status of the viewer. *)
Definition xdg_open_proc : proc := λ args files,
  match args with
  | [file] =>
      match files !! Path.resolve file with
      | None => (2, [])
      | Some c => (viewer env c, [])
      end
  | _ => (1, [])
  end.

Definition circo : list string → M unit := run "circo" circo_proc.
Definition xdg_open : list string → M unit := run "xdg_open" xdg_open_proc.

(** *** networkit *)

(** [graphio.readGraph]: a path that is no file and a file the reader
    refuses both raise [IOError]; the reader prints what it has to say
    about the file while it reads it; the graph read is named after the
    file. *)
Definition readGraph (path : string) (fileformat : Format) : M nat := λ w0,
  let w := log (Read path) w0 in
    match fs w !! Path.resolve path with
    | None => (Raise (IOError (path +:+ " is not a file")), w)
    | Some text =>
        let w1 := log_all (Print <$> reader_says env fileformat text) w in
        match reader env fileformat text with
        | None => (Raise (IOError (reader_error env path fileformat text)), w1)
        | Some g =>
            let G := fresh (dom (heap w1)) in
            (Ok G, set_heap (<[G := setName (Path.stem (Path.basename path)) g]> (heap w1)) w1)
        end
    end.

(** A profile keeps its graph and the report computed for it. *)
Record Profile := { pf_graph : nat; pf_html : string }.

(** [profiling.Profile.create(G, preset)] *)
Definition Profile_create (G : nat) (preset : string) : M Profile :=
  g ← get_graph G;
  match profile_html env preset g with
  | None => throw (ProfileError preset)
  | Some html => ret {| pf_graph := G; pf_html := html |}
  end.

Definition write_file (path content : string) : M unit := λ w,
  (Ok (), log (Write (Path.resolve path) content)
             (set_fs (<[Path.resolve path := content]> (fs w)) w)).

(** [pf.output(outputType, directory)]: the report goes to the file
    named after the graph in [directory].  Only the HTML output is
    modelled. *)
Definition Profile_output (pf : Profile) (outputType directory : string) : M unit :=
  if decide (outputType = "HTML") then
    g ← get_graph (pf_graph pf);
    write_file (directory +:+ "/" +:+ getName g +:+ ".html") (pf_html pf)
  else throw (ValueError "unknown output type").

(** [centrality.DegreeCentrality(G).run().scores()] *)
Definition DegreeCentrality_scores (G : nat) : M (list Z) :=
  g ← get_graph G; ret (degree_scores g).

Definition graph_numberOfNodes (G : nat) : M nat :=
  g ← get_graph G; ret (numberOfNodes g).

Definition graph_numberOfEdges (G : nat) : M nat :=
  g ← get_graph G; ret (numberOfEdges g).

(** *** print and pyplot *)

Definition print (line : string) : M unit := emit (Print line).

Definition format (fmt : string) (args : list string) : M string :=
  match str_format fmt args with
  | Some s => ret s
  | None => throw IndexError
  end.

Definition update_figure (f : Figure → Figure) : M unit := λ w,
  (Ok (), set_pyplot (f (pyplot w)) w).

Definition plt_xscale (s : string) : M unit :=
  match scale_of_string s with
  | Some sc => update_figure (λ f,
      {| xscale := sc; yscale := yscale f; xlabel := xlabel f;
         ylabel := ylabel f; lines := lines f |})
  | None => throw (ValueError s)
  end.

Definition plt_yscale (s : string) : M unit :=
  match scale_of_string s with
  | Some sc => update_figure (λ f,
      {| xscale := xscale f; yscale := sc; xlabel := xlabel f;
         ylabel := ylabel f; lines := lines f |})
  | None => throw (ValueError s)
  end.

Definition plt_xlabel (s : string) : M unit :=
  update_figure (λ f,
    {| xscale := xscale f; yscale := yscale f; xlabel := s;
       ylabel := ylabel f; lines := lines f |}).

Definition plt_ylabel (s : string) : M unit :=
  update_figure (λ f,
    {| xscale := xscale f; yscale := yscale f; xlabel := xlabel f;
       ylabel := s; lines := lines f |}).

(** [plt.plot(ys)]: one line, the values against their indices. *)
Definition plt_plot (ys : list Z) : M unit :=
  update_figure (λ f,
    {| xscale := xscale f; yscale := yscale f; xlabel := xlabel f;
       ylabel := ylabel f; lines := lines f ++ [(range (length ys), ys)] |}).

(** [plt.show()]: displays the figure until its window is closed, which
    leaves a new current figure. *)
Definition plt_show : M unit := λ w,
  (Ok (), set_pyplot new_figure (log (Show (pyplot w)) w)).

(** ** The script *)

(** line 3 *)
Definition imports : M unit :=
  import_cmd "circo" ;; import_cmd "gv2gml" ;; import_cmd "xdg_open".

(** lines 4 and 5 *)
Definition library_imports : M unit :=
  from_import "networkit" ["graphio"; "Format"; "profiling"; "centrality"] ;;
  import_module "matplotlib.pyplot".

(** line 9 *)
Definition layout_step : M unit :=
  circo ["-Tps"; "graph/graph.dot"; "-o"; "graph/graph.ps"].

(** lines 12 to 14 *)
Definition load_step : M nat :=
  graph ← readGraph "graph/graph.graphml" GraphML;
  n ← graph_numberOfNodes graph;
  m ← graph_numberOfEdges graph;
  line ← format "Nodes: {} Edges: {}" [pretty n; pretty m];
  print line ;;
  ret graph.

(** lines 18 to 20 *)
Definition profile_step (graph : nat) : M unit :=
  pf ← Profile_create graph "minimal";
  Profile_output pf "HTML" "." ;;
  xdg_open ["graph/graph.html"].

(** lines 22 to 28 *)
Definition centrality_plot_step (graph : nat) : M unit :=
  scores ← DegreeCentrality_scores graph;
  let dd := sorted_reverse scores in
  plt_xscale "log" ;;
  plt_xlabel "degree" ;;
  plt_yscale "log" ;;
  plt_ylabel "number of nodes" ;;
  plt_plot dd ;;
  plt_show.

Definition main : M unit :=
  imports ;;
  library_imports ;;
  layout_step ;;
  graph ← load_step;
  profile_step graph ;;
  centrality_plot_step graph.

(** The process: its exit status and the world it leaves. *)
Definition run_script (w : World) : Z * World :=
  let '(r, w') := main w in (exit_status r, w').


End Script.

(** * What the statements speak of *)

(** ** The files of the script *)

(** The two inputs, the rendering, the report that networkit writes for a
    graph named [graph] into the working directory, and the file that is
    handed to the viewer. *)
Definition dot_file : list string := ["graph"; "graph.dot"].
Definition graphml_file : list string := ["graph"; "graph.graphml"].
Definition ps_file : list string := ["graph"; "graph.ps"].
Definition report_file : list string := ["graph.html"].
Definition opened_file : list string := ["graph"; "graph.html"].

Definition layout_args : list string :=
  ["-Tps"; "graph/graph.dot"; "-o"; "graph/graph.ps"].

Definition open_args : list string := ["graph/graph.html"].

Definition graphml_path : string := "graph/graph.graphml".

Definition counts_line (g : Graph) : string :=
  "Nodes: " +:+ pretty (numberOfNodes g) +:+ " Edges: " +:+ pretty (numberOfEdges g).

(** Whether a string holds a space. *)
Fixpoint has_space (s : string) : bool :=
  match s with
  | EmptyString => false
  | String c rest => Ascii.eqb c " "%char || has_space rest
  end.

(** The graph that the script analyses when the reader returns [g]. *)
Definition named (g : Graph) : Graph := setName "graph" g.

(** ** The imports *)

(** What lines 4 and 5 import, in the order they ask for it. *)
Definition library_modules : list string :=
  ["networkit"; "networkit.graphio"; "networkit.Format"; "networkit.profiling";
   "networkit.centrality"; "matplotlib.pyplot"].

(** The first of them that cannot be imported. *)
Definition missing_module (env : Env) : option string :=
  List.find (λ m, negb (importable env m)) library_modules.

(** Whether lines 3 to 5 succeed: the three programs are found and the
    modules can be imported. *)
Definition can_import (env : Env) : bool :=
  which env "circo" && which env "gv2gml" && which env "xdg_open"
  && forallb (importable env) library_modules.

(** Lines 3 to 5. *)
Definition preamble (env : Env) : M unit :=
  imports env ;; library_imports env.

(** ** The score sequence *)

(** Line 22: the value of [dd] for the graph [g]. *)
Definition score_sequence (g : Graph) : list Z := sorted_reverse (degree_scores g).

(** No element is smaller than one behind it. *)
Definition descending (l : list Z) : Prop := StronglySorted Z.ge l.

(** ** The worlds a run goes through *)

(** The world in which the rendering has been written. *)
Definition rendered (img : string) (w : World) : World :=
  log (Exec "circo" layout_args 0)
    (log (Write ps_file img) (set_fs (<[ps_file := img]> (fs w)) w)).

(** The world in which the reader has been asked for the GraphML file and
    has printed the lines [said]. *)
Definition read_said (said : list string) (w : World) : World :=
  log_all (Print <$> said) (log (Read graphml_path) w).

(** The world in which the graph has been read and its counts printed. *)
Definition loaded (said : list string) (g : Graph) (w : World) : World :=
  log (Print (counts_line g))
    (set_heap (<[fresh (dom (heap w)) := setName "graph" g]> (heap w))
       (read_said said w)).

(** Where [pf.output] puts the report of a graph. *)
Definition report_of (g : Graph) : list string :=
  Path.resolve ("." +:+ "/" +:+ getName g +:+ ".html").

Definition reported (g : Graph) (html : string) (w : World) : World :=
  log (Write (report_of g) html) (set_fs (<[report_of g := html]> (fs w)) w).

Definition opened (status : Z) (w : World) : World :=
  log (Exec "xdg_open" open_args status) w.

(** The figure that the plot step shows when [fig] is the current one. *)
Definition plotted (g : Graph) (fig : Figure) : Figure :=
  {| xscale := Log; yscale := Log;
     xlabel := "degree"; ylabel := "number of nodes";
     lines := lines fig ++ [(range (length (score_sequence g)), score_sequence g)] |}.

Definition shown (g : Graph) (w : World) : World :=
  set_pyplot new_figure (log (Show (plotted g (pyplot w))) w).

(** ** Events and failures *)

(** The files written in a stretch of the log. *)
Definition written (evs : list event) : list (list string) :=
  omap (λ e, match e with Write f _ => Some f | _ => None end) evs.

(** What a stretch of the log leaves behind: the files written and the
    lines printed. *)
Definition outputs (evs : list event) : list event :=
  List.filter (λ e, match e with Write _ _ | Print _ => true | _ => false end) evs.

(** The lines printed in a stretch of the log. *)
Definition printed (evs : list event) : list string :=
  omap (λ e, match e with Print line => Some line | _ => None end) evs.

(** The programs run in a stretch of the log, with their arguments. *)
Definition execs (evs : list event) : list (string * list string) :=
  omap (λ e, match e with Exec prog args _ => Some (prog, args) | _ => None end) evs.

(** What a run on the files [files] needs to get to its end: the three
    programs are found and the modules imported, the DOT file is there and
    can be laid out, the GraphML file is there, can be read and profiled,
    and [graph/graph.html] is there and its viewer ends with status 0. *)
Definition can_complete (env : Env) (files : gmap (list string) string) : bool :=
  can_import env
  && match files !! dot_file with
     | Some src => bool_decide (is_Some (layout env "ps" src))
     | None => false
     end
  && match files !! graphml_file with
     | Some text =>
         match reader env GraphML text with
         | Some g => bool_decide (is_Some (profile_html env "minimal" (named g)))
         | None => false
         end
     | None => false
     end
  && match files !! opened_file with
     | Some c => viewer env c =? 0
     | None => false
     end.

(** The step an event belongs to: 1 layout, 2 load, 3 profile, 4 plot. *)
Definition event_step (e : event) : nat :=
  match e with
  | Exec prog _ _ => if decide (prog = "circo") then 1 else 3
  | Write f _ => if decide (f = ps_file) then 1 else 3
  | Read _ | Print _ => 2
  | Show _ => 4
  end.

(** A step of the run of [main] from [w] raises [e] in the world [w']. *)
Inductive step_fails (env : Env) (w : World) : exn → World → Prop :=
| preamble_fails e w' :
    preamble env w = (Raise e, w') →
    step_fails env w e w'
| layout_fails w0 e w' :
    preamble env w = (Ok (), w0) →
    layout_step env w0 = (Raise e, w') →
    step_fails env w e w'
| load_fails w0 w1 e w' :
    preamble env w = (Ok (), w0) →
    layout_step env w0 = (Ok (), w1) →
    load_step env w1 = (Raise e, w') →
    step_fails env w e w'
| profile_fails w0 w1 graph w2 e w' :
    preamble env w = (Ok (), w0) →
    layout_step env w0 = (Ok (), w1) →
    load_step env w1 = (Ok graph, w2) →
    profile_step env graph w2 = (Raise e, w') →
    step_fails env w e w'
| plot_fails w0 w1 graph w2 w3 e w' :
    preamble env w = (Ok (), w0) →
    layout_step env w0 = (Ok (), w1) →
    load_step env w1 = (Ok graph, w2) →
    profile_step env graph w2 = (Ok (), w3) →
    centrality_plot_step graph w3 = (Raise e, w') →
    step_fails env w e w'.

(** ** A sample environment *)

(** A file, a graph and tools to run the script on: every program is
    installed and every module can be imported, the renderer lays out any
    text, the reader knows two documents, an undirected and a directed
    one, and the viewer succeeds. *)
Module Sample.

Definition graphml_text : string :=
  "<graphml><graph edgedefault='undirected'/></graphml>".

Definition dot_text : string := "graph { a -- b; b -- c; c -- a; d }".

(** A triangle and an isolated node. *)
Definition triangle : Graph :=
  {| getName := "G"; isDirected := false; numberOfNodes := 4;
     edges := [(0, 1); (1, 2); (2, 0)]%nat |}.

(** A directed file: two arrows on three nodes. *)
Definition directed_text : string :=
  "<graphml><graph edgedefault='directed'/></graphml>".

Definition arrows : Graph :=
  {| getName := "G"; isDirected := true; numberOfNodes := 3;
     edges := [(0, 1); (1, 2)]%nat |}.

Definition env : Env :=
  {| installed := λ p, bool_decide (p ∈ ["circo"; "gv2gml"; "xdg-open"]);
     importable := λ _, true;
     layout := λ fmt src,
       if decide (fmt = "ps") then Some ("%!PS " +:+ src) else None;
     reader := λ f text,
       match f with
       | GraphML =>
           if decide (text = graphml_text) then Some triangle
           else if decide (text = directed_text) then Some arrows
           else None
       | _ => None
       end;
     reader_says := λ f text,
       if decide (text = directed_text) then ["identified graph as directed"] else [];
     reader_error := λ path f text, path +:+ " cannot be read";
     profile_html := λ preset g,
       if decide (preset = "minimal")
       then Some ("<html>" +:+ getName g +:+ "</html>") else None;
     viewer := λ _, 0 |}.

(** Both inputs, and nothing else. *)
Definition files : gmap (list string) string :=
  {[ dot_file := dot_text; graphml_file := graphml_text ]}.

(** Only the DOT file. *)
Definition only_dot : gmap (list string) string := {[ dot_file := dot_text ]}.

(** Both inputs and an older [graph/graph.html]. *)
Definition with_old_page : gmap (list string) string :=
  <[ opened_file := "<html>old</html>" ]> files.

(** The same, and a file the script has no use for. *)
Definition other_tree : gmap (list string) string :=
  <[ ["notes.txt"] := "to do" ]> with_old_page.

(** Both inputs, the GraphML file a directed one, and an older page. *)
Definition directed_files : gmap (list string) string :=
  {[ dot_file := dot_text; graphml_file := directed_text;
     opened_file := "<html>old</html>" ]}.

(** The DOT file and a GraphML file that is no GraphML. *)
Definition malformed_files : gmap (list string) string :=
  {[ dot_file := dot_text; graphml_file := "<graphml" ]}.

(** The sample tools without [gv2gml]. *)
Definition env_without_gv2gml : Env :=
  {| installed := λ p, bool_decide (p ∈ ["circo"; "xdg-open"]);
     importable := importable env;
     layout := layout env; reader := reader env;
     reader_says := reader_says env; reader_error := reader_error env;
     profile_html := profile_html env; viewer := viewer env |}.

(** The sample tools without the renderer. *)
Definition env_without_circo : Env :=
  {| installed := λ p, bool_decide (p ∈ ["gv2gml"; "xdg-open"]);
     importable := importable env;
     layout := layout env; reader := reader env;
     reader_says := reader_says env; reader_error := reader_error env;
     profile_html := profile_html env; viewer := viewer env |}.

(** The sample tools without networkit's [profiling]. *)
Definition env_without_profiling : Env :=
  {| installed := installed env;
     importable := λ m, negb (bool_decide (m = "networkit.profiling"));
     layout := layout env; reader := reader env;
     reader_says := reader_says env; reader_error := reader_error env;
     profile_html := profile_html env; viewer := viewer env |}.

End Sample.

(** Three nodes, no edge. *)
Definition isolated_nodes : Graph :=
  {| getName := "graph"; isDirected := false; numberOfNodes := 3; edges := [] |}.

(** The heap after the sample file has been read. *)
Definition sample_heap : gmap nat Graph := {[ 0%nat := named Sample.triangle ]}.

Definition sample_loaded : World := set_heap sample_heap (boot Sample.files [] ∅).

(** The world in which the sample run without GraphML file ends. *)
Definition sample_failed_load : World :=
  log (Read graphml_path)
    (rendered ("%!PS " +:+ Sample.dot_text) (boot Sample.only_dot [] ∅)).

(** * Properties *)

(** ** The model at work *)

Example resolve_dot : Path.resolve "./graph.html" = ["graph.html"].
Proof. reflexivity. Qed.

Example resolve_graph_dir : Path.resolve "graph/graph.html" = ["graph"; "graph.html"].
Proof. reflexivity. Qed.

Example stem_basename : Path.stem (Path.basename "graph/graph.graphml") = "graph".
Proof. reflexivity. Qed.

Example replace_underscore : Path.replace "_"%char "-"%char "xdg_open" = "xdg-open".
Proof. reflexivity. Qed.

Example str_format_counts :
  str_format "Nodes: {} Edges: {}" [pretty 12%nat; pretty 7%nat]
  = Some "Nodes: 12 Edges: 7".
Proof. reflexivity. Qed.

Example sorted_reverse_ex : sorted_reverse [1; 3; 0; 3; 2] = [3; 3; 2; 1; 0].
Proof. reflexivity. Qed.

Example sample_counts_line : counts_line Sample.triangle = "Nodes: 4 Edges: 3".
Proof. reflexivity. Qed.

(** ** Sorting *)

Section Sorting.

Implicit Types (x y : Z) (l xs : list Z).

Lemma insort_desc_length x l : length (insort_desc x l) = S (length l).
Proof.
  induction l as [|y l IH]; simpl; [done|].
  destruct (x <? y); simpl; by rewrite ?IH.
Qed.

Lemma sorted_reverse_length xs : length (sorted_reverse xs) = length xs.
Proof.
  induction xs as [|x xs IH]; simpl; [done|].
  by rewrite insort_desc_length, IH.
Qed.

Lemma insort_desc_perm x l : Permutation (x :: l) (insort_desc x l).
Proof.
  induction l as [|y l IH]; simpl; [done|].
  destruct (x <? y); [|done].
  rewrite perm_swap. by constructor.
Qed.

Lemma sorted_reverse_perm xs : Permutation xs (sorted_reverse xs).
Proof.
  induction xs as [|x xs IH]; simpl; [done|].
  rewrite <- insort_desc_perm. by constructor.
Qed.

Lemma insort_desc_descending x l : descending l → descending (insort_desc x l).
Proof.
  unfold descending. induction 1 as [|y l Hl IH Hy]; simpl.
  - repeat constructor.
  - destruct (Z.ltb_spec x y) as [Hlt|Hge].
    + constructor; [done|].
      rewrite <- insort_desc_perm. constructor; [lia|done].
    + constructor; [by constructor|].
      constructor; [lia|].
      eapply Forall_impl; [exact Hy|]. intros z Hz. simpl in Hz. lia.
Qed.

Lemma sorted_reverse_descending xs : descending (sorted_reverse xs).
Proof.
  induction xs as [|x xs IH]; simpl; [constructor|].
  by apply insort_desc_descending.
Qed.


Lemma descending_lookup_le l i j a b :
  descending l → (i ≤ j)%nat → l !! i = Some a → l !! j = Some b → a >= b.
Proof.
  unfold descending. intros Hl. revert i j.
  induction Hl as [|y l Hl IH Hy]; intros i j Hij Ha Hb; [done|].
  destruct i as [|i], j as [|j]; simpl in *; try lia.
  - injection Ha as ->. injection Hb as ->. lia.
  - injection Ha as ->.
    rewrite Forall_forall in Hy. apply Hy.
    by eapply list_elem_of_lookup_2.
  - eapply IH; [|done..]. lia.
Qed.

End Sorting.

(** ** Scores and indices *)

Lemma degree_scores_length g : length (degree_scores g) = numberOfNodes g.
Proof. unfold degree_scores. by rewrite length_map, length_seq. Qed.

Lemma score_sequence_length g : length (score_sequence g) = numberOfNodes g.
Proof. unfold score_sequence. by rewrite sorted_reverse_length, degree_scores_length. Qed.

Lemma degree_no_edges g u : numberOfEdges g = 0%nat → degree g u = 0%nat.
Proof.
  unfold numberOfEdges, degree. intros H.
  by rewrite (nil_length_inv _ H).
Qed.

Lemma degree_scores_no_edges g :
  numberOfEdges g = 0%nat → Forall (λ s, s = 0) (degree_scores g).
Proof.
  intros H. unfold degree_scores. apply Forall_map, Forall_forall.
  intros u _. simpl. by rewrite degree_no_edges.
Qed.

Lemma range_lookup (n i : nat) : (i < n)%nat → range n !! i = Some (Z.of_nat i).
Proof.
  intros Hi. unfold range. rewrite list_lookup_fmap, lookup_seq_lt by done.
  reflexivity.
Qed.

(** ** The steps, one by one *)

Lemma append_empty_r (s : string) : s +:+ "" = s.
Proof.
  induction s as [|c s IH]; [done|].
  change (String c (s +:+ "") = String c s). by rewrite IH.
Qed.

Lemma str_format_counts_line (a b : string) :
  str_format "Nodes: {} Edges: {}" [a; b] = Some ("Nodes: " +:+ a +:+ " Edges: " +:+ b).
Proof. simpl. by rewrite append_empty_r. Qed.

Section Steps.

Variable env : Env.

Lemma circo_proc_layout files :
  circo_proc env layout_args files =
  match files !! dot_file with
  | None => (2, [])
  | Some src =>
      match layout env "ps" src with
      | None => (1, [])
      | Some img => (0, [(ps_file, img)])
      end
  end.
Proof. reflexivity. Qed.

Lemma xdg_open_proc_open files :
  xdg_open_proc env open_args files =
  match files !! opened_file with
  | None => (2, [])
  | Some c => (viewer env c, [])
  end.
Proof. reflexivity. Qed.

(** The three ways the layout step ends. *)
Lemma layout_step_eq w :
  layout_step env w =
  match fs w !! dot_file with
  | None => (Raise (ProcessExecutionError "circo" layout_args 2),
             log (Exec "circo" layout_args 2) w)
  | Some src =>
      match layout env "ps" src with
      | None => (Raise (ProcessExecutionError "circo" layout_args 1),
                 log (Exec "circo" layout_args 1) w)
      | Some img =>
          (Ok (), log (Exec "circo" layout_args 0)
                    (log (Write ps_file img) (set_fs (<[ps_file := img]> (fs w)) w)))
      end
  end.
Proof.
  unfold layout_step, circo, run. fold layout_args.
  rewrite circo_proc_layout.
  destruct (fs w !! dot_file) as [src|]; [|done].
  by destruct (layout env "ps" src).
Qed.

(** The three ways the load step ends. *)
Lemma load_step_eq w :
  load_step env w =
  match fs w !! graphml_file with
  | None => (Raise (IOError (graphml_path +:+ " is not a file")),
             log (Read graphml_path) w)
  | Some text =>
      match reader env GraphML text with
      | None => (Raise (IOError (reader_error env graphml_path GraphML text)),
                 read_said (reader_says env GraphML text) w)
      | Some g => (Ok (fresh (dom (heap w))), loaded (reader_says env GraphML text) g w)
      end
  end.
Proof.
  unfold load_step, readGraph, mbind, M_bind, bind. fold graphml_path.
  change (Path.resolve graphml_path) with graphml_file.
  change (fs (log (Read graphml_path) w)) with (fs w).
  destruct (fs w !! graphml_file) as [text|]; [|done].
  destruct (reader env GraphML text) as [g|]; [|done].
  unfold graph_numberOfNodes, graph_numberOfEdges, get_graph, mbind, M_bind, bind.
  do 2 (cbn [heap set_heap log log_all mret M_ret ret]; rewrite lookup_insert_eq).
  cbn [mret M_ret ret numberOfNodes numberOfEdges setName edges].
  unfold format. rewrite str_format_counts_line. reflexivity.
Qed.

(** The ways the profile step ends. *)
Lemma profile_step_eq w G g :
  heap w !! G = Some g →
  profile_step env G w =
  match profile_html env "minimal" g with
  | None => (Raise (ProfileError "minimal"), w)
  | Some html =>
      let w1 := reported g html w in
      match fs w1 !! opened_file with
      | None => (Raise (ProcessExecutionError "xdg_open" open_args 2),
                 log (Exec "xdg_open" open_args 2) w1)
      | Some c =>
          if viewer env c =? 0
          then (Ok (), log (Exec "xdg_open" open_args (viewer env c)) w1)
          else (Raise (ProcessExecutionError "xdg_open" open_args (viewer env c)),
                log (Exec "xdg_open" open_args (viewer env c)) w1)
      end
  end.
Proof.
  intros HG.
  unfold profile_step, Profile_create, get_graph, mbind, M_bind, bind. rewrite HG.
  destruct (profile_html env "minimal" g) as [html|]; [|done].
  cbn [mret M_ret ret]. unfold Profile_output.
  rewrite decide_True by done.
  unfold get_graph, mbind, M_bind, bind. cbn [pf_graph pf_html]. rewrite HG.
  unfold write_file, xdg_open, run. fold open_args (report_of g) (reported g html w).
  rewrite xdg_open_proc_open.
  destruct (fs (reported g html w) !! opened_file) as [c|]; [|done].
  cbn zeta. by destruct (viewer env c =? 0).
Qed.

(** The plot step cannot fail on a graph that exists. *)
Lemma centrality_plot_step_eq w G g :
  heap w !! G = Some g →
  centrality_plot_step G w =
  (Ok (), set_pyplot new_figure (log (Show (plotted g (pyplot w))) w)).
Proof.
  intros HG.
  unfold centrality_plot_step, DegreeCentrality_scores, get_graph, mbind, M_bind, bind.
  by rewrite HG.
Qed.

Lemma imports_eq w :
  imports env w =
  if which env "circo" then
    if which env "gv2gml" then
      if which env "xdg_open" then (Ok (), w)
      else (Raise (ImportError "xdg_open"), w)
    else (Raise (ImportError "gv2gml"), w)
  else (Raise (ImportError "circo"), w).
Proof.
  unfold imports, import_cmd, mbind, M_bind, bind.
  destruct (which env "circo"); [|done].
  destruct (which env "gv2gml"); [|done].
  by destruct (which env "xdg_open").
Qed.

(** Lines 4 and 5 end with the first module that cannot be imported. *)
Lemma library_imports_eq w :
  library_imports env w =
  match missing_module env with
  | None => (Ok (), w)
  | Some m => (Raise (ImportError m), w)
  end.
Proof.
  unfold library_imports, from_import, import_module, missing_module, library_modules,
    mbind, M_bind, bind.
  cbn [foldr List.find].
  change ("networkit" +:+ "." +:+ "graphio") with "networkit.graphio".
  change ("networkit" +:+ "." +:+ "Format") with "networkit.Format".
  change ("networkit" +:+ "." +:+ "profiling") with "networkit.profiling".
  change ("networkit" +:+ "." +:+ "centrality") with "networkit.centrality".
  destruct (importable env "networkit"); [|done].
  destruct (importable env "networkit.graphio"); [|done].
  destruct (importable env "networkit.Format"); [|done].
  destruct (importable env "networkit.profiling"); [|done].
  destruct (importable env "networkit.centrality"); [|done].
  by destruct (importable env "matplotlib.pyplot").
Qed.

Lemma preamble_eq w :
  preamble env w =
  if which env "circo" then
    if which env "gv2gml" then
      if which env "xdg_open" then
        match missing_module env with
        | None => (Ok (), w)
        | Some m => (Raise (ImportError m), w)
        end
      else (Raise (ImportError "xdg_open"), w)
    else (Raise (ImportError "gv2gml"), w)
  else (Raise (ImportError "circo"), w).
Proof.
  unfold preamble, mbind, M_bind, bind. rewrite imports_eq.
  destruct (which env "circo"); [|done].
  destruct (which env "gv2gml"); [|done].
  destruct (which env "xdg_open"); [|done].
  rewrite library_imports_eq. by destruct (missing_module env).
Qed.


Lemma can_import_module : can_import env = true → missing_module env = None.
Proof.
  unfold can_import, missing_module, library_modules. cbn [forallb List.find].
  destruct (which env "circo"), (which env "gv2gml"), (which env "xdg_open"),
    (importable env "networkit"), (importable env "networkit.graphio"),
    (importable env "networkit.Format"), (importable env "networkit.profiling"),
    (importable env "networkit.centrality"), (importable env "matplotlib.pyplot");
    done.
Qed.

Lemma all_importable :
  missing_module env = None → forallb (importable env) library_modules = true.
Proof.
  unfold missing_module, library_modules. cbn [forallb List.find].
  by destruct (importable env "networkit"), (importable env "networkit.graphio"),
    (importable env "networkit.Format"), (importable env "networkit.profiling"),
    (importable env "networkit.centrality"), (importable env "matplotlib.pyplot").
Qed.

Lemma can_import_which :
  can_import env = true →
  which env "circo" = true ∧ which env "gv2gml" = true ∧ which env "xdg_open" = true.
Proof.
  unfold can_import.
  by destruct (which env "circo"), (which env "gv2gml"), (which env "xdg_open").
Qed.

(** ** The whole run *)

(** Nothing in [main] handles an exception: the first step that raises
    ends the run. *)
Lemma main_eq w :
  main env w =
  match preamble env w with
  | (Raise e, w0) => (Raise e, w0)
  | (Ok _, w0) =>
      match layout_step env w0 with
      | (Raise e, w1) => (Raise e, w1)
      | (Ok _, w1) =>
          match load_step env w1 with
          | (Raise e, w2) => (Raise e, w2)
          | (Ok graph, w2) =>
              match profile_step env graph w2 with
              | (Raise e, w3) => (Raise e, w3)
              | (Ok _, w3) => centrality_plot_step graph w3
              end
          end
      end
  end.
Proof.
  unfold main, preamble, mbind, M_bind, bind.
  destruct (imports env w) as [[[]|e0] w0]; [|done].
  by destruct (library_imports env w0) as [[[]|e1] w1].
Qed.

(** The run as a function of what it depends on: the programs installed,
    the two input files, the file handed to the viewer, and the tools. *)
Lemma main_outcome w :
  main env w =
  if which env "circo" then
    if which env "gv2gml" then
      if which env "xdg_open" then
        match missing_module env with
        | Some m => (Raise (ImportError m), w)
        | None =>
        match fs w !! dot_file with
        | None => (Raise (ProcessExecutionError "circo" layout_args 2),
                   log (Exec "circo" layout_args 2) w)
        | Some src =>
            match layout env "ps" src with
            | None => (Raise (ProcessExecutionError "circo" layout_args 1),
                       log (Exec "circo" layout_args 1) w)
            | Some img =>
                let w1 := rendered img w in
                match fs w !! graphml_file with
                | None => (Raise (IOError (graphml_path +:+ " is not a file")),
                           log (Read graphml_path) w1)
                | Some text =>
                    match reader env GraphML text with
                    | None =>
                        (Raise (IOError (reader_error env graphml_path GraphML text)),
                         read_said (reader_says env GraphML text) w1)
                    | Some g =>
                        let w2 := loaded (reader_says env GraphML text) g w1 in
                        match profile_html env "minimal" (named g) with
                        | None => (Raise (ProfileError "minimal"), w2)
                        | Some html =>
                            let w3 := reported (named g) html w2 in
                            match fs w !! opened_file with
                            | None =>
                                (Raise (ProcessExecutionError "xdg_open" open_args 2),
                                 opened 2 w3)
                            | Some c =>
                                if viewer env c =? 0
                                then (Ok (), shown (named g) (opened (viewer env c) w3))
                                else (Raise (ProcessExecutionError "xdg_open" open_args
                                               (viewer env c)),
                                      opened (viewer env c) w3)
                            end
                        end
                    end
                end
            end
        end
        end
      else (Raise (ImportError "xdg_open"), w)
    else (Raise (ImportError "gv2gml"), w)
  else (Raise (ImportError "circo"), w).
Proof.
  rewrite main_eq, preamble_eq.
  destruct (which env "circo"); [|done].
  destruct (which env "gv2gml"); [|done].
  destruct (which env "xdg_open"); [|done].
  destruct (missing_module env); [done|].
  rewrite layout_step_eq.
  destruct (fs w !! dot_file) as [src|]; [|done].
  destruct (layout env "ps" src) as [img|]; [|done].
  fold (rendered img w). rewrite load_step_eq.
  replace (fs (rendered img w) !! graphml_file) with (fs w !! graphml_file)
    by (symmetry; by apply lookup_insert_ne).
  destruct (fs w !! graphml_file) as [text|]; [|done].
  destruct (reader env GraphML text) as [g|]; [|done].
  cbn zeta.
  rewrite (profile_step_eq _ _ (named g)) by apply lookup_insert_eq.
  destruct (profile_html env "minimal" (named g)) as [html|]; [|done].
  cbn zeta.
  replace (fs (reported (named g) html
                 (loaded (reader_says env GraphML text) g (rendered img w))) !! opened_file)
    with (fs w !! opened_file).
  2:{ symmetry. cbn [fs reported loaded read_said rendered log log_all set_fs set_heap].
      rewrite lookup_insert_ne by done. by apply lookup_insert_ne. }
  destruct (fs w !! opened_file) as [c|]; [|done].
  destruct (viewer env c =? 0); [|done].
  by rewrite (centrality_plot_step_eq _ _ (named g)) by apply lookup_insert_eq.
Qed.

End Steps.

Lemma report_of_named g : report_of (named g) = report_file.
Proof. reflexivity. Qed.

Ltac unfold_worlds :=
  cbn [fst snd trace fs heap pyplot argv environ boot log log_all set_fs set_heap
       set_pyplot rendered read_said loaded reported opened shown];
  rewrite ?report_of_named;
  rewrite <- ?app_assoc; cbn [app].

(** ** Stretches of the log *)

(** What the reader prints is neither a file written, nor a process, nor a
    figure; it belongs to the load step. *)
Lemma written_said (said : list string) : written (Print <$> said) = [].
Proof. unfold written. by induction said. Qed.

Lemma execs_said (said : list string) : execs (Print <$> said) = [].
Proof. unfold execs. by induction said. Qed.

Lemma printed_said (said : list string) : printed (Print <$> said) = said.
Proof. unfold printed. induction said as [|l said IH]; [done|]. cbn. by rewrite IH. Qed.

Lemma written_app (l1 l2 : list event) : written (l1 ++ l2) = written l1 ++ written l2.
Proof. apply omap_app. Qed.

Lemma execs_app (l1 l2 : list event) : execs (l1 ++ l2) = execs l1 ++ execs l2.
Proof. apply omap_app. Qed.

Lemma printed_app (l1 l2 : list event) : printed (l1 ++ l2) = printed l1 ++ printed l2.
Proof. apply omap_app. Qed.

(** The processes, files and lines of a run that has got to the reader. *)
Lemma execs_run (img : string) (said : list string) (rest : list event) :
  execs (Write ps_file img :: Exec "circo" layout_args 0 :: Read graphml_path
           :: (Print <$> said) ++ rest)
  = ("circo", layout_args) :: execs rest.
Proof.
  change (("circo", layout_args) :: execs ((Print <$> said) ++ rest)
          = ("circo", layout_args) :: execs rest).
  by rewrite execs_app, execs_said.
Qed.

Lemma written_run (img : string) (said : list string) (rest : list event) :
  written (Write ps_file img :: Exec "circo" layout_args 0 :: Read graphml_path
             :: (Print <$> said) ++ rest)
  = ps_file :: written rest.
Proof.
  change (ps_file :: written ((Print <$> said) ++ rest) = ps_file :: written rest).
  by rewrite written_app, written_said.
Qed.

Lemma printed_run (img : string) (said : list string) (rest : list event) :
  printed (Write ps_file img :: Exec "circo" layout_args 0 :: Read graphml_path
             :: (Print <$> said) ++ rest)
  = said ++ printed rest.
Proof.
  change (printed ((Print <$> said) ++ rest) = said ++ printed rest).
  by rewrite printed_app, printed_said.
Qed.

Lemma last_of_run (a b c p q r z d : event) (said : list event) :
  List.last (a :: b :: c :: said ++ [p; q; r; z]) d = z.
Proof.
  change (a :: b :: c :: said ++ [p; q; r; z])
    with ([a; b; c] ++ said ++ [p; q; r] ++ [z]).
  rewrite !app_assoc. apply last_last.
Qed.

Lemma shows_said_nil (said : list string) :
  List.filter (λ e, match e with Show _ => true | _ => false end) (Print <$> said) = [].
Proof. by induction said. Qed.

Lemma shows_said (said : list string) (rest : list event) :
  List.filter (λ e, match e with Show _ => true | _ => false end)
    ((Print <$> said) ++ rest)
  = List.filter (λ e, match e with Show _ => true | _ => false end) rest.
Proof. by rewrite List.filter_app, shows_said_nil. Qed.

Lemma said_steps (said : list string) (e : event) :
  e ∈ Print <$> said → event_step e = 2%nat.
Proof. intros (line & -> & _)%list_elem_of_fmap. reflexivity. Qed.

Lemma said_sorted (said : list string) (rest : list event) :
  StronglySorted le (event_step <$> rest) →
  Forall (λ e, 2 ≤ event_step e)%nat rest →
  StronglySorted le (event_step <$> (Print <$> said) ++ rest)
  ∧ Forall (λ e, 2 ≤ event_step e)%nat ((Print <$> said) ++ rest).
Proof.
  intros Hsorted Hrest. induction said as [|line said [IHs IHf]]; [done|].
  split; [|by constructor]. cbn. constructor; [done|].
  apply Forall_fmap. exact IHf.
Qed.

(** The events of the layout step, of the reader, and events of the load
    step or later, in this order, are in the order of the steps. *)
Lemma run_sorted (img : string) (said : list string) (rest : list event) :
  StronglySorted le (event_step <$> rest) →
  Forall (λ e, 2 ≤ event_step e)%nat rest →
  StronglySorted le
    (event_step <$> Write ps_file img :: Exec "circo" layout_args 0
       :: Read graphml_path :: (Print <$> said) ++ rest).
Proof.
  intros Hsorted Hrest. destruct (said_sorted said rest Hsorted Hrest) as [Hs Hf].
  assert (Forall (le 2%nat) (event_step <$> (Print <$> said) ++ rest)) as Hf2.
  { by apply Forall_fmap. }
  change (StronglySorted le
            (1 :: 1 :: 2 :: (event_step <$> (Print <$> said) ++ rest))%nat).
  assert (∀ k : nat, (k ≤ 2)%nat →
            Forall (le k) (event_step <$> (Print <$> said) ++ rest)) as Hk.
  { intros k Hle. eapply Forall_impl; [exact Hf2|]. cbn. lia. }
  apply SSorted_cons;
    [apply SSorted_cons; [apply SSorted_cons; [exact Hs|apply Hk; lia]|]|].
  - constructor; [lia|apply Hk; lia].
  - constructor; [lia|]. constructor; [lia|apply Hk; lia].
Qed.

(** Takes a membership in a stretch of the log apart. *)
Ltac split_in H :=
  repeat first
    [ apply elem_of_nil in H; destruct H
    | apply elem_of_cons in H as [H|H]
    | apply elem_of_app in H as [H|H]
    | apply list_elem_of_fmap in H as (? & H & _) ].

(** * The properties of the specification *)

(** ** Scores *)


(** C5: in a graph without edges every degree-centrality score is zero,
    before and after the sort. *)
Theorem no_edges_all_scores_zero (g : Graph) :
  numberOfEdges g = 0%nat →
  Forall (λ s, s = 0) (degree_scores g) ∧ Forall (λ s, s = 0) (score_sequence g).
Proof.
  intros H. pose proof (degree_scores_no_edges g H) as Hz.
  split; [done|].
  unfold score_sequence. by rewrite <- sorted_reverse_perm.
Qed.

(** Three nodes without an edge have the scores 0, 0, 0. *)
Lemma no_edges_all_scores_zero_witness :
  numberOfEdges isolated_nodes = 0%nat
  ∧ score_sequence isolated_nodes = [0; 0; 0]
  ∧ Forall (λ s, s = 0) (score_sequence isolated_nodes).
Proof.
  split; [reflexivity|]. split; [reflexivity|].
  apply (no_edges_all_scores_zero isolated_nodes). reflexivity.
Defined.

(** ** The plot *)

(** C9: the centrality-plot step shows one new line on axes that are both
    logarithmic: the sorted scores against their indices.  The point at
    index [i] carries a score that no later point exceeds and no earlier
    point falls below; the scores plotted are those of the graph, each as
    often as it occurs. *)
Theorem plot_is_log_log_rank_curve (w : World) (G : nat) (g : Graph) :
  heap w !! G = Some g →
  ∃ (fig : Figure) (w' : World),
    centrality_plot_step G w = (Ok (), w')
    ∧ trace w' = trace w ++ [Show fig]
    ∧ xscale fig = Log ∧ yscale fig = Log
    ∧ lines fig
      = lines (pyplot w) ++ [(range (length (score_sequence g)), score_sequence g)]
    ∧ score_sequence g ≡ₚ degree_scores g
    ∧ ∀ (i : nat) (y : Z),
        score_sequence g !! i = Some y →
        range (length (score_sequence g)) !! i = Some (Z.of_nat i)
        ∧ ∀ (j : nat) (z : Z),
            score_sequence g !! j = Some z →
            ((i ≤ j)%nat → y >= z) ∧ ((j ≤ i)%nat → z >= y).
Proof.
  intros HG. eexists (plotted g (pyplot w)), _.
  split; [by apply centrality_plot_step_eq|].
  do 4 (split; [reflexivity|]).
  split; [symmetry; apply sorted_reverse_perm|].
  intros i y Hy. split.
  - apply range_lookup. by eapply lookup_lt_Some.
  - intros j z Hz. pose proof (sorted_reverse_descending (degree_scores g)) as Hd.
    split; intros Hij.
    + by eapply (descending_lookup_le _ i j).
    + by eapply (descending_lookup_le _ j i).
Qed.

(** The plot of the sample graph, whose sorted scores are 2, 2, 2, 0. *)
Lemma plot_is_log_log_rank_curve_witness :
  heap sample_loaded !! 0%nat = Some (named Sample.triangle)
  ∧ score_sequence (named Sample.triangle) = [2; 2; 2; 0]
  ∧ ∃ (fig : Figure) (w' : World),
      centrality_plot_step 0 sample_loaded = (Ok (), w')
      ∧ trace w' = trace sample_loaded ++ [Show fig]
      ∧ xscale fig = Log ∧ yscale fig = Log
      ∧ lines fig = lines (pyplot sample_loaded)
          ++ [(range (length (score_sequence (named Sample.triangle))),
               score_sequence (named Sample.triangle))]
      ∧ score_sequence (named Sample.triangle) ≡ₚ degree_scores (named Sample.triangle)
      ∧ ∀ (i : nat) (y : Z),
          score_sequence (named Sample.triangle) !! i = Some y →
          range (length (score_sequence (named Sample.triangle))) !! i = Some (Z.of_nat i)
          ∧ ∀ (j : nat) (z : Z),
              score_sequence (named Sample.triangle) !! j = Some z →
              ((i ≤ j)%nat → y >= z) ∧ ((j ≤ i)%nat → z >= y).
Proof.
  split; [reflexivity|]. split; [reflexivity|].
  apply (plot_is_log_log_rank_curve sample_loaded 0 (named Sample.triangle)).
  reflexivity.
Defined.

(** ** The graph object *)

Section Frame.

Variable env : Env.

Lemma profile_step_heap w G : heap (profile_step env G w).2 = heap w.
Proof.
  destruct (heap w !! G) as [g|] eqn:HG.
  - rewrite (profile_step_eq env w G g HG).
    destruct (profile_html env "minimal" g) as [html|]; [|done].
    cbn zeta. destruct (fs _ !! opened_file) as [c|]; [|done].
    by destruct (viewer env c =? 0).
  - unfold profile_step, Profile_create, get_graph, mbind, M_bind, bind.
    by rewrite HG.
Qed.

Lemma centrality_plot_step_heap w G : heap (centrality_plot_step G w).2 = heap w.
Proof.
  destruct (heap w !! G) as [g|] eqn:HG.
  - by rewrite (centrality_plot_step_eq w G g HG).
  - unfold centrality_plot_step, DegreeCentrality_scores, get_graph, mbind, M_bind, bind.
    by rewrite HG.
Qed.

(** C7: neither the profile step nor the centrality-plot step changes a
    graph object: whatever world and graph they start from and however
    they end, the heap of graphs is the same before and after each of them
    and after the two in a row. *)
Theorem graph_not_mutated (w : World) (G : nat) :
  heap (profile_step env G w).2 = heap w
  ∧ heap (centrality_plot_step G w).2 = heap w
  ∧ heap ((profile_step env G ;; centrality_plot_step G) w).2 = heap w.
Proof.
  split; [apply profile_step_heap|]. split; [apply centrality_plot_step_heap|].
  unfold mbind, M_bind, bind.
  pose proof (profile_step_heap w G) as H3.
  destruct (profile_step env G w) as [[[]|e] w3]; [|done].
  rewrite <- H3. apply centrality_plot_step_heap.
Qed.

(** ** The loader *)

(** C4: when [graph/graph.graphml] holds a text that the GraphML reader
    reads as the graph [g], the load step succeeds; after what the reader
    itself has to say, it prints the line [Nodes: N Edges: E] with the
    number of nodes and the number of edges of [g] in decimal, once, and
    the graph object it returns has these counts. *)
Theorem loader_prints_counts (w : World) (text : string) (g : Graph) :
  fs w !! graphml_file = Some text →
  reader env GraphML text = Some g →
  ∃ (G : nat) (w' : World) (g' : Graph),
    load_step env w = (Ok G, w')
    ∧ trace w'
      = trace w ++ Read graphml_path :: (Print <$> reader_says env GraphML text)
          ++ [Print ("Nodes: " +:+ pretty (numberOfNodes g)
                     +:+ " Edges: " +:+ pretty (numberOfEdges g))]
    ∧ heap w' !! G = Some g'
    ∧ numberOfNodes g' = numberOfNodes g
    ∧ numberOfEdges g' = numberOfEdges g.
Proof.
  intros Hfile Hread. rewrite load_step_eq, Hfile, Hread.
  eexists _, _, (named g). split; [reflexivity|].
  split; [unfold_worlds; reflexivity|].
  split; [apply lookup_insert_eq|done].
Qed.

End Frame.

(** The load step on the sample tree with the directed file: the reader
    says that the graph is directed, then the counts are printed. *)
Lemma loader_prints_counts_witness :
  fs (boot Sample.directed_files [] ∅) !! graphml_file = Some Sample.directed_text
  ∧ reader Sample.env GraphML Sample.directed_text = Some Sample.arrows
  ∧ ∃ (G : nat) (w' : World) (g' : Graph),
      load_step Sample.env (boot Sample.directed_files [] ∅) = (Ok G, w')
      ∧ trace w'
        = trace (boot Sample.directed_files [] ∅)
            ++ Read graphml_path
               :: (Print <$> reader_says Sample.env GraphML Sample.directed_text)
            ++ [Print ("Nodes: " +:+ pretty (numberOfNodes Sample.arrows)
                       +:+ " Edges: " +:+ pretty (numberOfEdges Sample.arrows))]
      ∧ heap w' !! G = Some g'
      ∧ numberOfNodes g' = numberOfNodes Sample.arrows
      ∧ numberOfEdges g' = numberOfEdges Sample.arrows.
Proof.
  split; [reflexivity|]. split; [reflexivity|].
  apply (loader_prints_counts Sample.env (boot Sample.directed_files [] ∅)
           Sample.directed_text Sample.arrows); reflexivity.
Defined.

(** What the load step logs on the directed file. *)
Example directed_load :
  trace (load_step Sample.env (boot Sample.directed_files [] ∅)).2
  = [Read "graph/graph.graphml"; Print "identified graph as directed";
     Print "Nodes: 3 Edges: 2"].
Proof. reflexivity. Qed.

(** ** Runs of the whole script *)

Section Runs.

Variable env : Env.


(** Without [graph/graph.html] in the tree no run gets to the plot: the
    report goes to [graph.html], the viewer is asked for
    [graph/graph.html]. *)
Lemma no_page_no_plot (w : World) :
  fs w !! opened_file = None → ∃ e : exn, (main env w).1 = Raise e.
Proof.
  intros Hno. rewrite (main_outcome env w), Hno.
  repeat case_match; by eexists.
Qed.

(** C6: the events of a run come step by step, layout, load, profile,
    plot: no event of a step precedes one of an earlier step.  A run that
    ends without exception has written [graph/graph.ps] and seen [circo]
    exit, then read the GraphML file, with what the reader prints, and
    printed the counts, then written the report and seen the viewer exit,
    then shown the plot. *)
Theorem steps_run_in_order (w : World) :
  ∃ evs : list event,
    trace (main env w).2 = trace w ++ evs
    ∧ StronglySorted le (event_step <$> evs)
    ∧ ((main env w).1 = Ok () →
       ∃ (img html text : string) (g : Graph) (fig : Figure),
         fs w !! graphml_file = Some text
         ∧ reader env GraphML text = Some g
         ∧ evs = [Write ps_file img; Exec "circo" layout_args 0; Read graphml_path]
                 ++ (Print <$> reader_says env GraphML text)
                 ++ [Print (counts_line g);
                     Write report_file html; Exec "xdg_open" open_args 0;
                     Show fig]).
Proof.
  rewrite (main_outcome env w).
  repeat case_match; subst;
    try (exists []; rewrite app_nil_r; repeat split; [constructor|done]);
    eexists; unfold_worlds; (split; [reflexivity|]);
    (split;
     [first [ apply run_sorted; repeat constructor
            | rewrite <- (app_nil_r (Print <$> _)); apply run_sorted; constructor
            | repeat constructor ]|]);
    try done.
  intros _.
  match goal with H : (viewer env _ =? 0) = true |- _ => apply Z.eqb_eq in H; rewrite H end.
  by eexists _, _, _, _, _.
Qed.

End Runs.



(** C3, on the sample tree: the report is written to [graph.html], the
    viewer is started on [graph/graph.html], which is not there, and the
    run ends with the viewer's error. *)
Theorem report_written_is_not_the_file_opened :
  (main Sample.env (boot Sample.files [] ∅)).1
  = Raise (ProcessExecutionError "xdg_open" ["graph/graph.html"] 2)
  ∧ trace (main Sample.env (boot Sample.files [] ∅)).2
    = [Write ["graph"; "graph.ps"] "%!PS graph { a -- b; b -- c; c -- a; d }";
       Exec "circo" ["-Tps"; "graph/graph.dot"; "-o"; "graph/graph.ps"] 0;
       Read "graph/graph.graphml";
       Print "Nodes: 4 Edges: 3";
       Write ["graph.html"] "<html>graph</html>";
       Exec "xdg_open" ["graph/graph.html"] 2]
  ∧ fs (main Sample.env (boot Sample.files [] ∅)).2 !! ["graph.html"]
    = Some "<html>graph</html>"
  ∧ fs (main Sample.env (boot Sample.files [] ∅)).2 !! Path.resolve "graph/graph.html"
    = None.
Proof. vm_compute. repeat split. Qed.

(** A run that gets to the plot: the tree holds an older
    [graph/graph.html], and that is the page the viewer shows. *)
Example complete_run :
  (main Sample.env (boot Sample.with_old_page [] ∅)).1 = Ok ()
  ∧ trace (main Sample.env (boot Sample.with_old_page [] ∅)).2
    = [Write ["graph"; "graph.ps"] "%!PS graph { a -- b; b -- c; c -- a; d }";
       Exec "circo" ["-Tps"; "graph/graph.dot"; "-o"; "graph/graph.ps"] 0;
       Read "graph/graph.graphml";
       Print "Nodes: 4 Edges: 3";
       Write ["graph.html"] "<html>graph</html>";
       Exec "xdg_open" ["graph/graph.html"] 0;
       Show {| xscale := Log; yscale := Log;
               xlabel := "degree"; ylabel := "number of nodes";
               lines := [([0; 1; 2; 3], [2; 2; 2; 0])] |}].
Proof. vm_compute. split; reflexivity. Qed.

(** ** Failures *)

Section Failures.

Variable env : Env.

Lemma step_failure_raises (w : World) (e : exn) (w' : World) :
  step_fails env w e w' → main env w = (Raise e, w').
Proof.
  intros Hfail. rewrite main_eq.
  destruct Hfail as [e w' H0|w0 e w' H0 H1|w0 w1 e w' H0 H1 H2
                    |w0 w1 G w2 e w' H0 H1 H2 H3|w0 w1 G w2 w3 e w' H0 H1 H2 H3 H4];
    rewrite H0; try done; rewrite H1; try done; rewrite H2; try done;
    by rewrite H3.
Qed.

(** Every exception of a run is one that a step raised. *)
Lemma raise_is_step_failure (w : World) (e : exn) (w' : World) :
  main env w = (Raise e, w') → step_fails env w e w'.
Proof.
  rewrite main_eq.
  destruct (preamble env w) as [[[]|e0] w0] eqn:H0;
    [|intros [= <- <-]; by apply preamble_fails].
  destruct (layout_step env w0) as [[[]|e1] w1] eqn:H1;
    [|intros [= <- <-]; by eapply layout_fails].
  destruct (load_step env w1) as [[G|e2] w2] eqn:H2;
    [|intros [= <- <-]; by eapply load_fails].
  destruct (profile_step env G w2) as [[[]|e3] w3] eqn:H3;
    [|intros [= <- <-]; by eapply profile_fails].
  intros H4. by eapply plot_fails.
Qed.

Lemma program_missing (w : World) (prog : string) :
  prog ∈ ["circo"; "gv2gml"; "xdg_open"] →
  which env prog = false →
  ∃ name : string,
    name ∈ ["circo"; "gv2gml"; "xdg_open"]
    ∧ main env w = (Raise (ImportError name), w).
Proof.
  intros Hprog Hno. rewrite main_outcome.
  repeat (apply elem_of_cons in Hprog as [->|Hprog]); [..|by apply elem_of_nil in Hprog];
    rewrite ?Hno.
  - exists "circo". split; [set_solver|done].
  - destruct (which env "circo").
    + exists "gv2gml". split; [set_solver|done].
    + exists "circo". split; [set_solver|done].
  - destruct (which env "circo"); [|exists "circo"; split; [set_solver|done]].
    destruct (which env "gv2gml"); [|exists "gv2gml"; split; [set_solver|done]].
    exists "xdg_open". split; [set_solver|done].
Qed.

(** C8: every failure ends the run where it happens, with exit status 1.
    A program of line 3 that is not installed, the renderer for one, or a
    module of lines 4 and 5 that cannot be imported, ends the run before
    anything is done.  After the imports: a missing DOT file or a DOT text
    that is not laid out ends it with the renderer's error, [circo] having
    run once; a missing or a malformed GraphML file ends it with [IOError]
    after the layout step, the file having been asked for once; a profile
    that fails and a viewer that fails end it in the same way.  In each
    case the world the run leaves is the world the failing call left: no
    call is made again and no later step runs.  The exception of a run is
    always the exception of the step that failed. *)
Theorem failure_ends_the_run (w : World) :
  (∀ prog : string,
     prog ∈ ["circo"; "gv2gml"; "xdg_open"] →
     which env prog = false →
     ∃ name : string,
       name ∈ ["circo"; "gv2gml"; "xdg_open"]
       ∧ main env w = (Raise (ImportError name), w))
  ∧ (∀ m : string,
       imports env w = (Ok (), w) →
       missing_module env = Some m →
       main env w = (Raise (ImportError m), w))
  ∧ (can_import env = true →
     (fs w !! dot_file = None →
      main env w = (Raise (ProcessExecutionError "circo" layout_args 2),
                    log (Exec "circo" layout_args 2) w))
     ∧ ∀ src : string,
         fs w !! dot_file = Some src →
         (layout env "ps" src = None →
          main env w = (Raise (ProcessExecutionError "circo" layout_args 1),
                        log (Exec "circo" layout_args 1) w))
         ∧ ∀ img : string,
             layout env "ps" src = Some img →
             (fs w !! graphml_file = None →
              main env w = (Raise (IOError (graphml_path +:+ " is not a file")),
                            log (Read graphml_path) (rendered img w)))
             ∧ ∀ text : string,
                 fs w !! graphml_file = Some text →
                 (reader env GraphML text = None →
                  main env w
                  = (Raise (IOError (reader_error env graphml_path GraphML text)),
                     read_said (reader_says env GraphML text) (rendered img w)))
                 ∧ ∀ g : Graph,
                     reader env GraphML text = Some g →
                     (profile_html env "minimal" (named g) = None →
                      main env w
                      = (Raise (ProfileError "minimal"),
                         loaded (reader_says env GraphML text) g (rendered img w)))
                     ∧ ∀ html : string,
                         profile_html env "minimal" (named g) = Some html →
                         (fs w !! opened_file = None →
                          main env w
                          = (Raise (ProcessExecutionError "xdg_open" open_args 2),
                             opened 2
                               (reported (named g) html
                                  (loaded (reader_says env GraphML text) g
                                     (rendered img w)))))
                         ∧ ∀ c : string,
                             fs w !! opened_file = Some c →
                             viewer env c ≠ 0 →
                             main env w
                             = (Raise (ProcessExecutionError "xdg_open" open_args
                                         (viewer env c)),
                                opened (viewer env c)
                                  (reported (named g) html
                                     (loaded (reader_says env GraphML text) g
                                        (rendered img w)))))
  ∧ (∀ (e : exn) (w' : World),
       step_fails env w e w' ↔ main env w = (Raise e, w'))
  ∧ (∀ (e : exn) (w' : World),
       main env w = (Raise e, w') → run_script env w = (1, w')).
Proof.
  split; [apply program_missing|].
  split.
  { intros m Himp Hm. rewrite main_eq, preamble_eq.
    rewrite imports_eq in Himp.
    destruct (which env "circo"); [|done].
    destruct (which env "gv2gml"); [|done].
    destruct (which env "xdg_open"); [|done].
    by rewrite Hm. }
  split.
  { intros Hcan.
    destruct (can_import_which env Hcan) as (Hc & Hg & Hx).
    pose proof (can_import_module env Hcan) as Hm.
    rewrite (main_outcome env w), Hc, Hg, Hx, Hm.
    split; [by intros ->|]. intros src ->.
    split; [by intros ->|]. intros img ->. cbn zeta.
    split; [by intros ->|]. intros text ->.
    split; [by intros ->|]. intros g ->. cbn zeta.
    split; [by intros ->|]. intros html ->. cbn zeta.
    split; [by intros ->|]. intros c -> Hfail.
    apply Z.eqb_neq in Hfail. by rewrite Hfail. }
  split.
  { intros e w'. split; [apply step_failure_raises|apply raise_is_step_failure]. }
  intros e w' Hmain. unfold run_script. by rewrite Hmain.
Qed.

End Failures.

(** The run without GraphML file ends at the read, the run on a malformed
    file after what the reader printed, the run without the renderer
    before anything is done; each with exit status 1. *)
Lemma failure_ends_the_run_witness :
  can_import Sample.env = true
  ∧ main Sample.env (boot Sample.only_dot [] ∅)
    = (Raise (IOError (graphml_path +:+ " is not a file")), sample_failed_load)
  ∧ run_script Sample.env (boot Sample.only_dot [] ∅) = (1, sample_failed_load)
  ∧ trace sample_failed_load
    = [Write ps_file ("%!PS " +:+ Sample.dot_text); Exec "circo" layout_args 0;
       Read graphml_path]
  ∧ run_script Sample.env (boot Sample.malformed_files [] ∅)
    = (1, read_said [] (rendered ("%!PS " +:+ Sample.dot_text)
                          (boot Sample.malformed_files [] ∅)))
  ∧ (∃ name : string,
       name ∈ ["circo"; "gv2gml"; "xdg_open"]
       ∧ main Sample.env_without_circo (boot Sample.files [] ∅)
         = (Raise (ImportError name), boot Sample.files [] ∅)).
Proof.
  destruct (failure_ends_the_run Sample.env (boot Sample.only_dot [] ∅))
    as (_ & _ & Hsteps & _ & Hexit).
  destruct (Hsteps eq_refl) as (_ & Hdot).
  destruct (Hdot Sample.dot_text eq_refl) as (_ & Hlay).
  destruct (Hlay ("%!PS " +:+ Sample.dot_text) eq_refl) as (Hml & _).
  destruct (failure_ends_the_run Sample.env (boot Sample.malformed_files [] ∅))
    as (_ & _ & Hsteps' & _ & Hexit').
  destruct (Hsteps' eq_refl) as (_ & Hdot').
  destruct (Hdot' Sample.dot_text eq_refl) as (_ & Hlay').
  destruct (Hlay' ("%!PS " +:+ Sample.dot_text) eq_refl) as (_ & Hml').
  destruct (Hml' "<graphml" eq_refl) as (Hbad & _).
  destruct (failure_ends_the_run Sample.env_without_circo (boot Sample.files [] ∅))
    as (Hprog & _).
  split; [reflexivity|].
  split; [exact (Hml eq_refl)|].
  split; [exact (Hexit _ _ (Hml eq_refl))|].
  split; [reflexivity|].
  split; [exact (Hexit' _ _ (Hbad eq_refl))|].
  apply (Hprog "circo"); [repeat constructor|reflexivity].
Defined.

(** Without the renderer on the search path nothing runs at all. *)
Example no_renderer :
  main Sample.env_without_circo (boot Sample.files [] ∅)
  = (Raise (ImportError "circo"), boot Sample.files [] ∅).
Proof. reflexivity. Qed.

(** Without networkit's [profiling] neither. *)
Example no_profiling :
  main Sample.env_without_profiling (boot Sample.files [] ∅)
  = (Raise (ImportError "networkit.profiling"), boot Sample.files [] ∅).
Proof. reflexivity. Qed.

(** ** Two runs *)

Section TwoRuns.

Variable env : Env.

(** Two interpreters started on trees that agree on the two input files,
    with the same tools, and for which the viewer of [graph/graph.html]
    behaves alike, end in the same way and with the same log: the same
    lines printed, the same files written with the same contents, the same
    figure shown. *)
Lemma runs_agree (f1 f2 : gmap (list string) string) (a1 a2 : list string)
    (v1 v2 : gmap string string) :
  f1 !! dot_file = f2 !! dot_file →
  f1 !! graphml_file = f2 !! graphml_file →
  xdg_open_proc env open_args f1 = xdg_open_proc env open_args f2 →
  (main env (boot f1 a1 v1)).1 = (main env (boot f2 a2 v2)).1
  ∧ trace (main env (boot f1 a1 v1)).2 = trace (main env (boot f2 a2 v2)).2.
Proof.
  intros Hdot Hml Hview. rewrite !xdg_open_proc_open in Hview.
  rewrite !main_outcome. cbn [fs boot]. rewrite Hdot, Hml.
  destruct (which env "circo"); [|done].
  destruct (which env "gv2gml"); [|done].
  destruct (which env "xdg_open"); [|done].
  destruct (missing_module env); [done|].
  destruct (f2 !! dot_file) as [src|]; [|done].
  destruct (layout env "ps" src) as [img|]; [|done].
  destruct (f2 !! graphml_file) as [text|]; [|done].
  destruct (reader env GraphML text) as [g|]; [|done].
  destruct (profile_html env "minimal" (named g)) as [html|]; [|done].
  cbn zeta.
  destruct (f1 !! opened_file) as [c1|], (f2 !! opened_file) as [c2|].
  - injection Hview as Hview. rewrite Hview. by destruct (viewer env c2 =? 0).
  - injection Hview as Hview. by rewrite Hview.
  - injection Hview as Hview. by rewrite <- Hview.
  - done.
Qed.

(** Whatever the viewer does: what is printed and what is written does not
    depend on it. *)
Lemma outputs_agree (f1 f2 : gmap (list string) string) (a1 a2 : list string)
    (v1 v2 : gmap string string) :
  f1 !! dot_file = f2 !! dot_file →
  f1 !! graphml_file = f2 !! graphml_file →
  outputs (trace (main env (boot f1 a1 v1)).2)
  = outputs (trace (main env (boot f2 a2 v2)).2).
Proof.
  intros Hdot Hml.
  rewrite !main_outcome. cbn [fs boot]. rewrite Hdot, Hml.
  repeat case_match; unfold_worlds; try reflexivity;
    unfold outputs; cbn [List.filter]; rewrite !List.filter_app; reflexivity.
Qed.

End TwoRuns.

(** Two trees with the same inputs and the same older page, one with a
    further file. *)
Lemma runs_agree_sample :
  Sample.with_old_page !! dot_file = Sample.other_tree !! dot_file
  ∧ Sample.with_old_page !! graphml_file = Sample.other_tree !! graphml_file
  ∧ xdg_open_proc Sample.env open_args Sample.with_old_page
    = xdg_open_proc Sample.env open_args Sample.other_tree
  ∧ (main Sample.env (boot Sample.with_old_page ["analyze.py"] ∅)).1
    = (main Sample.env
         (boot Sample.other_tree ["analyze.py"; "--fast"] {[ "HOME" := "/root" ]})).1
  ∧ trace (main Sample.env (boot Sample.with_old_page ["analyze.py"] ∅)).2
    = trace (main Sample.env
               (boot Sample.other_tree ["analyze.py"; "--fast"] {[ "HOME" := "/root" ]})).2.
Proof.
  do 3 (split; [reflexivity|]).
  apply (runs_agree Sample.env Sample.with_old_page Sample.other_tree
           ["analyze.py"] ["analyze.py"; "--fast"] ∅ {[ "HOME" := "/root" ]});
    reflexivity.
Qed.


(** * Further properties of the run *)

(** Looks the file [p] up after each of the ways a run can end. *)
Ltac keep_file p :=
  repeat case_match; unfold_worlds;
  rewrite ?(lookup_insert_ne _ report_file p) by done;
  rewrite ?(lookup_insert_ne _ ps_file p) by done.

Section Further.

Variable env : Env.

Lemma main_keeps_file (w : World) (p : list string) :
  p ≠ ps_file → p ≠ report_file → fs (main env w).2 !! p = fs w !! p.
Proof. intros Hps Hreport. rewrite (main_outcome env w). by keep_file p. Qed.

(** X1: the three programs named on line 3 are looked up before anything
    else happens: when one of them is not found, the run ends with
    [ImportError] in the world it started in.  This holds for [gv2gml]
    too, which the script never runs. *)
Theorem needs_all_three_programs (w : World) (prog : string) :
  prog ∈ ["circo"; "gv2gml"; "xdg_open"] →
  which env prog = false →
  ∃ name : string,
    name ∈ ["circo"; "gv2gml"; "xdg_open"]
    ∧ main env w = (Raise (ImportError name), w).
Proof.
  intros Hprog Hno. rewrite main_outcome.
  repeat (apply elem_of_cons in Hprog as [->|Hprog]); [..|by apply elem_of_nil in Hprog];
    rewrite ?Hno.
  - exists "circo". split; [set_solver|done].
  - destruct (which env "circo").
    + exists "gv2gml". split; [set_solver|done].
    + exists "circo". split; [set_solver|done].
  - destruct (which env "circo"); [|exists "circo"; split; [set_solver|done]].
    destruct (which env "gv2gml"); [|exists "gv2gml"; split; [set_solver|done]].
    exists "xdg_open". split; [set_solver|done].
Qed.

(** X2: a run starts at most two processes: first [circo] on the arguments
    of line 9, then [xdg-open] on the path of line 20, each at most once and
    in this order; no other program, [gv2gml] in particular, is run. *)
Theorem only_circo_and_viewer_run (w : World) :
  ∃ evs : list event,
    trace (main env w).2 = trace w ++ evs
    ∧ (execs evs = []
       ∨ execs evs = [("circo", layout_args)]
       ∨ execs evs = [("circo", layout_args); ("xdg_open", open_args)]).
Proof.
  rewrite (main_outcome env w).
  repeat case_match;
    try (exists []; rewrite app_nil_r; split; [done|by left]);
    eexists; unfold_worlds; (split; [reflexivity|]);
    first [ rewrite execs_run
          | rewrite <- (app_nil_r (Print <$> _)), execs_run
          | idtac ];
    cbn; auto.
Qed.

(** X3: what a run needs to get to its end.  A run ends without
    exception only if the three programs are found and the modules of
    lines 4 and 5 imported, [graph/graph.dot] is there and is laid out,
    [graph/graph.graphml] is there and is read and profiled, and the tree
    already holds a [graph/graph.html] whose viewer ends with status 0. *)
Theorem run_completes_only_if (w : World) :
  (main env w).1 = Ok () → can_complete env (fs w) = true.
Proof.
  rewrite main_outcome. unfold can_complete, can_import.
  destruct (which env "circo"); [|done].
  destruct (which env "gv2gml"); [|done].
  destruct (which env "xdg_open"); [|done].
  destruct (missing_module env) eqn:Hm; [done|].
  rewrite (all_importable env Hm).
  destruct (fs w !! dot_file) as [src|]; [|done].
  destruct (layout env "ps" src) as [img|]; [|done].
  destruct (fs w !! graphml_file) as [text|]; [|done].
  destruct (reader env GraphML text) as [g|]; [|done].
  destruct (profile_html env "minimal" (named g)) as [html|]; [|done].
  destruct (fs w !! opened_file) as [c|]; [|done].
  cbn. rewrite ?bool_decide_eq_true_2 by by eexists.
  by destruct (viewer env c =? 0).
Qed.

(** X4: the run changes no file but [graph/graph.ps] and [graph.html]: any
    other file, the two inputs among them, holds after the run what it
    held before, however the run ends. *)
Theorem only_outputs_change (w : World) (p : list string) :
  p ≠ ps_file →
  p ≠ report_file →
  fs (main env w).2 !! p = fs w !! p.
Proof.
  intros Hps Hreport. rewrite (main_outcome env w).
  keep_file p; reflexivity.
Qed.

(** X5: nothing is cleaned up: every file written in a run holds at the
    end what was written to it, also when a later step fails; and what is
    written to [graph/graph.ps] is the layout of the DOT file. *)
Theorem written_files_persist (w : World) :
  ∃ evs : list event,
    trace (main env w).2 = trace w ++ evs
    ∧ (∀ (f : list string) (c : string),
         Write f c ∈ evs → fs (main env w).2 !! f = Some c)
    ∧ (∀ img : string,
         Write ps_file img ∈ evs →
         ∃ src : string, fs w !! dot_file = Some src ∧ layout env "ps" src = Some img).
Proof.
  rewrite (main_outcome env w).
  repeat case_match; subst;
    try (exists []; rewrite app_nil_r; split; [done|];
         split; intros; exfalso; by eapply not_elem_of_nil);
    eexists; unfold_worlds; (split; [reflexivity|]);
    (split; [intros f c Hin|intros img' Hin]);
    split_in Hin; try discriminate Hin;
    unfold ps_file, report_file in *; simplify_eq;
    first [ by eauto
          | apply lookup_insert_eq
          | rewrite lookup_insert_ne by done; apply lookup_insert_eq ].
Qed.

(** X7: in a run that gets to its end, the graph whose counts are printed
    is the graph that is plotted: the one the reader makes of the GraphML
    file.  The figure shown ends with a curve of as many points as the line
    printed reports nodes, under the labels of lines 24 and 26, and it is
    the last event of the run. *)
Theorem complete_run_prints_and_plots (w : World) :
  (main env w).1 = Ok () →
  ∃ (text : string) (g : Graph) (fig : Figure) (evs : list event)
    (xs ys : list Z),
    fs w !! graphml_file = Some text
    ∧ reader env GraphML text = Some g
    ∧ trace (main env w).2 = trace w ++ evs
    ∧ Print (counts_line g) ∈ evs
    ∧ List.last evs (Print "") = Show fig
    ∧ lines fig = lines (pyplot w) ++ [(xs, ys)]
    ∧ length xs = numberOfNodes g
    ∧ length ys = numberOfNodes g
    ∧ ys ≡ₚ degree_scores g
    ∧ xlabel fig = "degree"
    ∧ ylabel fig = "number of nodes".
Proof.
  rewrite (main_outcome env w).
  repeat case_match; try done. intros _.
  eexists _, _, _, _, _, _. unfold_worlds.
  do 3 (split; [done|]).
  split; [rewrite !elem_of_cons, elem_of_app, elem_of_cons; do 4 right; by left|].
  split; [apply last_of_run|]. cbn [lines plotted].
  split; [reflexivity|].
  split; [unfold range; rewrite length_map, length_seq|];
    [apply (score_sequence_length (named _))|].
  split; [apply (score_sequence_length (named _))|].
  split; [symmetry; apply (sorted_reverse_perm (degree_scores (named _)))|done].
Qed.

(** X9: the plot is shown in the runs that get to their end and in no
    other: a run that fails shows no figure, and a figure is shown once. *)
Theorem plot_only_when_complete (w : World) :
  ∃ evs : list event,
    trace (main env w).2 = trace w ++ evs
    ∧ ((main env w).1 = Ok () ↔ ∃ fig : Figure, Show fig ∈ evs)
    ∧ (length (List.filter (λ e, match e with Show _ => true | _ => false end) evs)
       ≤ 1)%nat.
Proof.
  rewrite (main_outcome env w).
  repeat case_match; subst;
    try (exists []; rewrite app_nil_r; split; [done|];
         split; [|cbn; lia]; split; [done|intros [fig Hin]; by apply elem_of_nil in Hin]);
    eexists; unfold_worlds; (split; [reflexivity|]);
    (split;
     [|cbn [List.filter]; rewrite ?shows_said, ?shows_said_nil; cbn; lia]);
    (split;
     [try done; intros _; eexists;
      rewrite !elem_of_cons, elem_of_app, !elem_of_cons; do 7 right; by left|]);
    try done;
    intros [fig Hin]; split_in Hin; discriminate Hin.
Qed.

(** X10: a second run on the tree that a first run left gives the result
    and the log of the first: the run reads none of the files it writes,
    so its outputs do not change what it does next time. *)
Theorem rerun_repeats (files : gmap (list string) string) (a1 a2 : list string)
    (v1 v2 : gmap string string) :
  (main env (boot (fs (main env (boot files a1 v1)).2) a2 v2)).1
  = (main env (boot files a1 v1)).1
  ∧ trace (main env (boot (fs (main env (boot files a1 v1)).2) a2 v2)).2
    = trace (main env (boot files a1 v1)).2.
Proof.
  rewrite (main_outcome env (boot (fs (main env (boot files a1 v1)).2) a2 v2)).
  cbn [fs boot]. rewrite !main_keeps_file by done.
  rewrite (main_outcome env (boot files a1 v1)). cbn [fs boot].
  repeat case_match; done.
Qed.


(** X12: the script prints one line of its own, the counts.  What a run
    prints is nothing, or what the GraphML reader has to say about the
    file, followed, once the graph is read, by the counts of that graph:
    the counts line comes once and last, also in runs that fail in a later
    step. *)
Theorem prints_counts_once (w : World) :
  ∃ evs : list event,
    trace (main env w).2 = trace w ++ evs
    ∧ (printed evs = []
       ∨ ∃ text : string,
           fs w !! graphml_file = Some text
           ∧ (printed evs = reader_says env GraphML text
              ∨ ∃ g : Graph,
                  reader env GraphML text = Some g
                  ∧ printed evs = reader_says env GraphML text ++ [counts_line g]))
    ∧ (Read graphml_path ∈ evs →
       ∀ (text : string) (g : Graph),
         fs w !! graphml_file = Some text →
         reader env GraphML text = Some g →
         printed evs = reader_says env GraphML text ++ [counts_line g]).
Proof.
  rewrite (main_outcome env w).
  repeat case_match; subst;
    try (exists []; rewrite app_nil_r; split; [done|]; split; [by left|];
         intros Hin; by apply elem_of_nil in Hin);
    eexists; unfold_worlds; (split; [reflexivity|]);
    first [ rewrite printed_run
          | rewrite <- (app_nil_r (Print <$> _)), printed_run
          | idtac ];
    cbn [printed omap list_omap]; rewrite ?app_nil_r;
    (split;
     [first [ by left
            | right; eexists; split; [done|]; right; by eexists
            | right; eexists; split; [done|]; by left ]|]);
    intros Hin text' g' Htext Hg; simplify_eq; try reflexivity;
    split_in Hin; discriminate Hin.
Qed.

End Further.

(** ** The line printed *)

Lemma append_cons (c : ascii) (a b : string) : String c a +:+ b = String c (a +:+ b).
Proof. reflexivity. Qed.

Lemma append_inv_head (p a b : string) : p +:+ a = p +:+ b → a = b.
Proof.
  induction p as [|c p IH]; [done|].
  rewrite !append_cons. intros [= H]. by apply IH.
Qed.

Lemma pretty_N_go_no_space (x : N) (s : string) :
  has_space s = false → has_space (pretty_N_go x s) = false.
Proof.
  revert s. induction (N.lt_wf_0 x) as [x _ IH]; intros s Hs.
  assert (x = 0 ∨ 0 < x)%N as [->|Hx] by lia.
  - by rewrite pretty_N_go_0.
  - rewrite pretty_N_go_step by done. apply IH.
    { by apply N.div_lt. }
    simpl. rewrite Hs. unfold pretty_N_char. by repeat case_match.
Qed.

Lemma pretty_nat_no_space (n : nat) : has_space (pretty n) = false.
Proof.
  unfold pretty, pretty_nat, pretty, pretty_N.
  destruct (decide (N.of_nat n = 0%N)); [done|].
  by apply pretty_N_go_no_space.
Qed.

(** Two texts without space that are followed by a space end at the same
    place. *)
Lemma cut_at_space (a c r r' : string) :
  has_space a = false → has_space c = false →
  a +:+ String " " r = c +:+ String " " r' → a = c ∧ r = r'.
Proof.
  revert c. induction a as [|x a IH]; intros [|y c] Ha Hc; rewrite ?append_cons.
  - by intros [= ->].
  - intros [= <- _]. by simpl in Hc.
  - intros [= -> _]. by simpl in Ha.
  - simpl in Ha, Hc. apply orb_false_iff in Ha as [_ Ha], Hc as [_ Hc].
    intros [= -> H]. destruct (IH c Ha Hc H) as [-> ->]. done.
Qed.

(** X8: the line printed on line 14 tells the two counts apart: graphs that
    differ in the number of nodes or in the number of edges give different
    lines. *)
Theorem counts_line_determines_counts (g g' : Graph) :
  counts_line g = counts_line g' →
  numberOfNodes g = numberOfNodes g' ∧ numberOfEdges g = numberOfEdges g'.
Proof.
  unfold counts_line. intros H.
  apply append_inv_head in H.
  change (" Edges: " +:+ pretty (numberOfEdges g))
    with (String " " ("Edges: " +:+ pretty (numberOfEdges g))) in H.
  change (" Edges: " +:+ pretty (numberOfEdges g'))
    with (String " " ("Edges: " +:+ pretty (numberOfEdges g'))) in H.
  apply cut_at_space in H as [Hn He]; [|apply pretty_nat_no_space..].
  apply append_inv_head in He.
  split; by apply (inj pretty).
Qed.

(** ** The further properties on the sample tree *)

(** Without [gv2gml] the sample run ends at the import. *)
Lemma needs_all_three_programs_witness :
  "gv2gml" ∈ ["circo"; "gv2gml"; "xdg_open"]
  ∧ which Sample.env_without_gv2gml "gv2gml" = false
  ∧ ∃ name : string,
      name ∈ ["circo"; "gv2gml"; "xdg_open"]
      ∧ main Sample.env_without_gv2gml (boot Sample.files [] ∅)
        = (Raise (ImportError name), boot Sample.files [] ∅).
Proof.
  split; [set_solver|]. split; [reflexivity|].
  apply (needs_all_three_programs Sample.env_without_gv2gml
           (boot Sample.files [] ∅) "gv2gml"); [set_solver|reflexivity].
Defined.

(** The DOT file after the sample run. *)
Lemma only_outputs_change_witness :
  dot_file ≠ ps_file
  ∧ dot_file ≠ report_file
  ∧ fs (main Sample.env (boot Sample.files [] ∅)).2 !! dot_file
    = fs (boot Sample.files [] ∅) !! dot_file.
Proof.
  split; [done|]. split; [done|].
  apply (only_outputs_change Sample.env (boot Sample.files [] ∅) dot_file); done.
Defined.

(** The complete run on the tree with an older page. *)
Lemma complete_run_prints_and_plots_witness :
  (main Sample.env (boot Sample.with_old_page [] ∅)).1 = Ok ()
  ∧ ∃ (text : string) (g : Graph) (fig : Figure) (evs : list event)
      (xs ys : list Z),
      fs (boot Sample.with_old_page [] ∅) !! graphml_file = Some text
      ∧ reader Sample.env GraphML text = Some g
      ∧ trace (main Sample.env (boot Sample.with_old_page [] ∅)).2
        = trace (boot Sample.with_old_page [] ∅) ++ evs
      ∧ Print (counts_line g) ∈ evs
      ∧ List.last evs (Print "") = Show fig
      ∧ lines fig = lines (pyplot (boot Sample.with_old_page [] ∅)) ++ [(xs, ys)]
      ∧ length xs = numberOfNodes g
      ∧ length ys = numberOfNodes g
      ∧ ys ≡ₚ degree_scores g
      ∧ xlabel fig = "degree"
      ∧ ylabel fig = "number of nodes".
Proof.
  split; [reflexivity|].
  apply (complete_run_prints_and_plots Sample.env (boot Sample.with_old_page [] ∅)).
  reflexivity.
Defined.

(** The sample graph under two names prints one line. *)
Lemma counts_line_determines_counts_witness :
  counts_line Sample.triangle = counts_line (named Sample.triangle)
  ∧ numberOfNodes Sample.triangle = numberOfNodes (named Sample.triangle)
  ∧ numberOfEdges Sample.triangle = numberOfEdges (named Sample.triangle).
Proof.
  split; [reflexivity|].
  apply (counts_line_determines_counts Sample.triangle (named Sample.triangle)).
  reflexivity.
Defined.


(** The run on the tree with an older page gets to its end, so the tree
    has what a run needs. *)
Lemma run_completes_only_if_witness :
  (main Sample.env (boot Sample.with_old_page [] ∅)).1 = Ok ()
  ∧ can_complete Sample.env (fs (boot Sample.with_old_page [] ∅)) = true.
Proof.
  split; [reflexivity|].
  apply (run_completes_only_if Sample.env (boot Sample.with_old_page [] ∅)).
  reflexivity.
Defined.
